(** * Openverse frontend: [VButton.vue] and [VSafetyWall.vue]

    A shallow embedding of the script blocks and template bindings of the
    two components, followed by the properties of the derived attributes,
    classes, watcher and event handlers. *)

From Stdlib Require Import ZArith Ascii.
From stdpp Require Import base gmap strings list.

Open Scope string_scope.
Open Scope list_scope.

(** ** JavaScript values and the operators the components use *)

Module Js.

(** The values that props and pass-through attributes can hold.  Numbers
    are restricted to integers: no binding of the two components needs
    fractions or [NaN]. *)
Inductive value : Type :=
  | Undefined
  | Null
  | Bool (b : bool)
  | Number (n : Z)
  | Str (s : string).

#[global] Instance value_eq_dec : EqDecision value.
Proof. solve_decision. Defined.

(** [ToBoolean]. *)
Definition truthy (v : value) : bool :=
  match v with
  | Undefined | Null => false
  | Bool b => b
  | Number n => negb (n =? 0)%Z
  | Str s => negb (String.eqb s "")
  end.

(** [a || b] and [a && b] return one of their operands. *)
Definition or (a b : value) : value := if truthy a then a else b.

Definition and (a b : value) : value := if truthy a then b else a.

(** [!a] *)
Definition not (a : value) : value := Bool (negb (truthy a)).

(** [a !== b]: the values above are primitives, compared by value. *)
Definition strict_neq (a b : value) : bool := bool_decide (a ≠ b).

(** [arr.includes(x)] on an array of strings. *)
Definition includes (arr : list string) (x : string) : bool :=
  bool_decide (x ∈ arr).

(** [s.startsWith(p)]. *)
Definition startsWith (s p : string) : bool := String.prefix p s.

(** [arr.join(sep)] on an array of strings. *)
Fixpoint join (sep : string) (arr : list string) : string :=
  match arr with
  | [] => ""
  | [x] => x
  | x :: rest => x +:+ sep +:+ join sep rest
  end.

(** [s.split(sep)] for a separator of one character; only used to read a
    joined string back. *)
Fixpoint split (sep : ascii) (s : string) : list string :=
  match s with
  | EmptyString => [""]
  | String c rest =>
      if Ascii.eqb c sep then "" :: split sep rest
      else match split sep rest with
           | [] => [String c ""]
           | w :: ws => String c w :: ws
           end
  end.

(** Whether character [c] occurs in [s]. *)
Fixpoint occurs (c : ascii) (s : string) : bool :=
  match s with
  | EmptyString => false
  | String d rest => Ascii.eqb d c || occurs c rest
  end.

(** [obj[key]]: a missing key reads as [undefined]. *)
Definition get (obj : gmap string value) (key : string) : value :=
  default Undefined (obj !! key).

(** An optional boolean prop: unset is [undefined]. *)
Definition of_opt_bool (o : option bool) : value :=
  match o with
  | Some b => Bool b
  | None => Undefined
  end.

End Js.

(** ** How Vue turns a bound value into an attribute *)

Module Vue.

(** An ordinary attribute ([aria-disabled], [href], ...) is left out when
    the bound value is [undefined] or [null]. *)
Definition attr_present (v : Js.value) : bool :=
  match v with
  | Js.Undefined | Js.Null => false
  | _ => true
  end.

(** A boolean attribute ([disabled]) is present when the bound value is
    truthy or the empty string. *)
Definition boolean_attr_present (v : Js.value) : bool :=
  Js.truthy v || bool_decide (v = Js.Str "").

(** The names of a class object whose value is truthy. *)
Definition class_object (o : list (string * bool)) : list string :=
  map fst (filter (λ e, snd e = true) o).

End Vue.

(** ** [VButton.vue] *)

Module VButton.

(** [defineProps]: [as], [variant], [size], [type] and the connection flags
    are string unions of [#shared/types/button]; at run time they are
    strings. *)
Record Props : Type := mkProps {
  as_ : string;
  variant : string;
  pressed : option bool;
  size : string;
  disabled : bool;
  focusableWhenDisabled : bool;
  type : string;
  connections : list string;
  hasIconStart : bool;
  hasIconEnd : bool;
  iconOnly : bool;
}.

(** [withDefaults]: [variant] and [size] are required. *)
Definition defaults (variant size : string) : Props :=
  {| as_ := "button"; variant := variant; pressed := None; size := size;
     disabled := false; focusableWhenDisabled := false; type := "button";
     connections := []; hasIconStart := false; hasIconEnd := false;
     iconOnly := false |}.

(** A prop passed by the parent replaces the default. *)
Definition with_as (form : string) (p : Props) : Props :=
  {| as_ := form; variant := variant p; pressed := pressed p; size := size p;
     disabled := disabled p; focusableWhenDisabled := focusableWhenDisabled p;
     type := type p; connections := connections p;
     hasIconStart := hasIconStart p; hasIconEnd := hasIconEnd p;
     iconOnly := iconOnly p |}.

Definition with_hasIconEnd (b : bool) (p : Props) : Props :=
  {| as_ := as_ p; variant := variant p; pressed := pressed p; size := size p;
     disabled := disabled p; focusableWhenDisabled := focusableWhenDisabled p;
     type := type p; connections := connections p;
     hasIconStart := hasIconStart p; hasIconEnd := b;
     iconOnly := iconOnly p |}.

(** What [<Component :is>] receives. *)
Inductive component : Type :=
  | VLink
  | Native (tag : string).

(** The bindings of the root [<Component>] of the template. *)
Record Bindings : Type := mkBindings {
  bind_is : component;
  bind_type : option string;
  bind_class : list string;
  bind_class_object : list (string * bool);
  bind_aria_pressed : Js.value;
  bind_aria_disabled : Js.value;
  bind_disabled : Js.value;
  bind_link : gmap string Js.value;
}.

Section Computed.

Variable props : Props.
Variable attrs : gmap string Js.value.

Definition buttonComponent : component :=
  if String.eqb (as_ props) "VLink" then VLink else Native (as_ props).

Definition typeAttribute : option string :=
  if Js.includes ["VLink"; "a"] (as_ props) then None else Some (type props).

Definition connectionStyles : string :=
  Js.join " " (map (λ connection, "connection-" +:+ connection) (connections props)).

Definition isActive : Js.value :=
  Js.or (Js.or (Js.of_opt_bool (pressed props)) (Js.get attrs "aria-pressed"))
        (Js.get attrs "aria-expanded").

Definition variantClass : string :=
  if Js.truthy isActive
     && Js.includes ["bordered-white"; "bordered-tx"; "transparent-dark"] (variant props)
  then variant props +:+ "-pressed"
  else variant props.

Definition isPlainDangerous : bool := String.eqb (variant props) "plain--avoid".

Definition isFocusSlimFilled : bool := Js.startsWith (variant props) "filled-".

Definition isFocusSlimTx : bool :=
  Js.startsWith (variant props) "bordered-"
  || Js.startsWith (variant props) "transparent-"
  || String.eqb (variant props) "plain".

Definition supportsDisabledAttribute : bool := negb (String.eqb (as_ props) "VLink").

Definition ariaDisabled : Js.value :=
  Js.or (Js.and (Js.Bool (disabled props)) (Js.Bool (focusableWhenDisabled props)))
        Js.Undefined.

Definition disabledAttribute : Js.value :=
  let trulyDisabled :=
    Js.and (Js.Bool (disabled props)) (Js.not (Js.Bool (focusableWhenDisabled props))) in
  Js.or (Js.and trulyDisabled (Js.Bool supportsDisabledAttribute)) Js.Undefined.

Definition linkProps : gmap string Js.value :=
  if String.eqb (as_ props) "VLink" then {[ "href" := Js.get attrs "href" ]} else ∅.

(** The [<template>] block. *)
Definition template : Bindings :=
  {| bind_is := buttonComponent;
     bind_type := typeAttribute;
     bind_class := [variantClass; connectionStyles; size props];
     bind_class_object :=
       [("icon-only", iconOnly props);
        ("icon-start", hasIconStart props);
        ("icon-end", hasIconEnd props);
        ("border", negb isPlainDangerous);
        ("focus-visible:outline-tx", isPlainDangerous);
        ("focus-slim-filled", isFocusSlimFilled);
        ("focus-slim-tx", isFocusSlimTx)];
     bind_aria_pressed := Js.of_opt_bool (pressed props);
     bind_aria_disabled := ariaDisabled;
     bind_disabled := disabledAttribute;
     bind_link := linkProps |}.

End Computed.

(** *** The watcher on [props.as] *)

Section Watch.

(** [skipToContentTargetId] of [#shared/constants/window]. *)
Variable skipToContentTargetId : string.

Definition warning (as_ : string) : string :=
  "Please use `VLink` with an `href` prop instead of " +:+ as_
  +:+ " for the button component".

(** The callback; [warn] of [~/utils/console] appends to the console. *)
Definition onAsChange (attrs : gmap string Js.value) (as_ : string)
    (console : list string) : list string :=
  if Js.includes ["a"; "NuxtLink"] as_
     && Js.strict_neq (Js.get attrs "href") (Js.Str ("#" +:+ skipToContentTargetId))
  then console ++ [warning as_]
  else console.

(** A watcher keeps the last value of its source; [None] before its first
    run. *)
Record Watcher : Type := mkWatcher {
  oldValue : option string;
  console : list string;
}.

(** One run of the watcher's job: the callback is called when the source
    [() => props.as] gives a value other than the last one. *)
Definition job (w : Watcher) (render : Props * gmap string Js.value) : Watcher :=
  let newValue := as_ render.1 in
  if bool_decide (oldValue w = Some newValue) then w
  else {| oldValue := Some newValue;
          console := onAsChange render.2 newValue (console w) |}.

(** [{ immediate: true }]: the job runs once at setup, then after each
    update of the props. [renders] lists the props and attributes at setup
    and at each later update. *)
Definition watch (renders : list (Props * gmap string Js.value)) : Watcher :=
  foldl job {| oldValue := None; console := [] |} renders.

End Watch.

End VButton.

(** ** [VSafetyWall.vue] *)

Module VSafetyWall.

Record Props : Type := mkProps {
  sensitivity : list string;
  id : string;
}.

(** What the handlers and the two buttons can act on: the calls of
    [$sendCustomEvent], the events emitted to the parent component, and the
    locations the browser was sent to. *)
Record World : Type := mkWorld {
  analytics : list (string * gmap string Js.value);
  emitted : list (string * list Js.value);
  visited : list Js.value;
}.

Definition sendCustomEvent (name : string) (payload : gmap string Js.value)
    (w : World) : World :=
  {| analytics := analytics w ++ [(name, payload)];
     emitted := emitted w;
     visited := visited w |}.

Definition emit (name : string) (args : list Js.value) (w : World) : World :=
  {| analytics := analytics w;
     emitted := emitted w ++ [(name, args)];
     visited := visited w |}.

Definition navigate (href : Js.value) (w : World) : World :=
  {| analytics := analytics w;
     emitted := emitted w;
     visited := visited w ++ [href] |}.

(** The two [VButton]s of the template and the events a [VButton] passes
    on to its parent. *)
Inductive control : Type := Back | Show.

Inductive event : Type := click | mousedown | keydown | focus | blur.

#[global] Instance control_eq_dec : EqDecision control.
Proof. solve_decision. Defined.

#[global] Instance event_eq_dec : EqDecision event.
Proof. solve_decision. Defined.

Section Script.

Variable props : Props.

(** [searchStore.backToSearchPath]. *)
Variable backToSearchPath : Js.value.

Definition handleBack (w : World) : World :=
  sendCustomEvent "GO_BACK_FROM_SENSITIVE_RESULT"
    {[ "id" := Js.Str (id props);
       "sensitivities" := Js.Str (Js.join "," (sensitivity props)) ]} w.

Definition handleShow (w : World) : World := emit "reveal" [] w.

(** Props given to each [VButton] in the template. *)
Definition buttonProps (c : control) : VButton.Props :=
  match c with
  | Back => VButton.with_as "VLink" (VButton.defaults "filled-dark" "large")
  | Show => VButton.with_hasIconEnd true (VButton.defaults "bordered-gray" "large")
  end.

(** Attributes that are not props of [VButton]. *)
Definition buttonAttrs (c : control) : gmap string Js.value :=
  match c with
  | Back => {[ "class" := Js.Str "label-bold";
               "href" := Js.or backToSearchPath (Js.Str "/") ]}
  | Show => {[ "class" := Js.Str "label-bold" ]}
  end.

(** [@mousedown="handleBack"] and [@click="handleShow"]. *)
Definition listener (c : control) (e : event) : World → World :=
  match c, e with
  | Back, mousedown => handleBack
  | Show, click => handleShow
  | _, _ => λ w, w
  end.

Definition rendered (c : control) : VButton.Bindings :=
  VButton.template (buttonProps c) (buttonAttrs c).

(** The navigation target of a button: the [href] handed to the link. *)
Definition target (c : control) : option Js.value :=
  VButton.bind_link (rendered c) !! "href".

(** Modelled from the spec: [VLink.vue] is not among the sources.  The link
    collaborator accepts an href and renders a navigable link, so a click
    on a control rendered through it sends the browser to that href; a
    native [button] of type [button] does nothing by itself. *)
Definition defaultAction (c : control) (e : event) (w : World) : World :=
  match e, VButton.bind_is (rendered c), target c with
  | click, VButton.VLink, Some href => navigate href w
  | _, _, _ => w
  end.

(** An event on a control: the listener of the template, then the
    element's own action. *)
Definition dispatch (c : control) (e : event) (w : World) : World :=
  defaultAction c e (listener c e w).

(** The listeners of the template over a sequence of events on the two
    controls, oldest first. *)
Definition listen (trace : list (control * event)) (w : World) : World :=
  foldl (λ w ce, listener ce.1 ce.2 w) w trace.

End Script.

End VSafetyWall.

(** ** The specification's reading of the class string and of the watcher *)

Module Spec.

(** Each connection flag gives the token [connection-<flag>]; the tokens
    are put one after the other in input order, a single space before
    every token but the first. *)
Definition connectionClasses (flags : list string) : string :=
  (foldl (λ acc flag,
            (S acc.1, acc.2 +:+ (if acc.1 is O then "" else " ") +:+ "connection-" +:+ flag))
         (O, "") flags).2.

Section Warnings.

Variable skipToContentTargetId : string.

(** The condition under which a warning is due: the rendering form is [a]
    or [NuxtLink] and the href is not the skip-to-content fragment. *)
Definition misuse (render : VButton.Props * gmap string Js.value) : bool :=
  bool_decide (VButton.as_ render.1 = "a" ∨ VButton.as_ render.1 = "NuxtLink")
  && bool_decide (Js.get render.2 "href" ≠ Js.Str ("#" +:+ skipToContentTargetId)).

(** Render [i] changes the rendering form: it is the first render, or its
    [as] is not that of the render before. *)
Definition changed (renders : list (VButton.Props * gmap string Js.value))
    (i : nat) : bool :=
  match i with
  | O => true
  | S j =>
      bool_decide (VButton.as_ ∘ fst <$> renders !! j ≠ VButton.as_ ∘ fst <$> renders !! i)
  end.

(** The warning due at render [i], if any. *)
Definition warningAt (renders : list (VButton.Props * gmap string Js.value))
    (i : nat) : option string :=
  render ← renders !! i;
  if changed renders i && misuse render
  then Some (VButton.warning (VButton.as_ render.1)) else None.

(** One warning for each change of the rendering form that is a misuse,
    in the order of the renders. *)
Definition warnings (renders : list (VButton.Props * gmap string Js.value)) : list string :=
  omap (warningAt renders) (seq 0 (length renders)).

End Warnings.

End Spec.

(** * Properties *)

(** ** Helper lemmas on the JavaScript operators *)

Lemma includes_spec (arr : list string) (x : string) :
  Js.includes arr x = true ↔ x ∈ arr.
Proof. unfold Js.includes. apply bool_decide_eq_true. Qed.

Lemma includes_false (arr : list string) (x : string) :
  Js.includes arr x = false ↔ x ∉ arr.
Proof. unfold Js.includes. apply bool_decide_eq_false. Qed.

Lemma or_truthy (a b : Js.value) :
  Js.truthy (Js.or a b) = Js.truthy a || Js.truthy b.
Proof. unfold Js.or. destruct (Js.truthy a) eqn:Ha; simpl; [exact Ha | reflexivity]. Qed.

Lemma streq_spec (s t : string) : String.eqb s t = bool_decide (s = t).
Proof.
  destruct (String.eqb_spec s t) as [->| Hne].
  - by rewrite bool_decide_eq_true_2.
  - by rewrite bool_decide_eq_false_2.
Qed.

(** ** Disabled and aria-disabled *)

Lemma ariaDisabled_value (props : VButton.Props) :
  VButton.ariaDisabled props =
  if VButton.disabled props && VButton.focusableWhenDisabled props
  then Js.Bool true else Js.Undefined.
Proof.
  unfold VButton.ariaDisabled.
  by destruct (VButton.disabled props), (VButton.focusableWhenDisabled props).
Qed.

Lemma disabledAttribute_value (props : VButton.Props) :
  VButton.disabledAttribute props =
  if VButton.disabled props && negb (VButton.focusableWhenDisabled props)
     && negb (bool_decide (VButton.as_ props = "VLink"))
  then Js.Bool true else Js.Undefined.
Proof.
  unfold VButton.disabledAttribute, VButton.supportsDisabledAttribute.
  rewrite streq_spec.
  by destruct (VButton.disabled props), (VButton.focusableWhenDisabled props),
       (bool_decide (VButton.as_ props = "VLink")).
Qed.

(** C1: with [disabled = true], a control that stays focusable carries
    [aria-disabled] and no [disabled] attribute whatever its rendering form;
    a control that does not stay focusable carries neither attribute when
    rendered as [VLink], and carries [disabled] without [aria-disabled]
    when rendered as [button]. *)
Theorem disabled_resolution (props : VButton.Props) (attrs : gmap string Js.value) :
  VButton.disabled props = true →
  let b := VButton.template props attrs in
  (VButton.focusableWhenDisabled props = true →
     VButton.bind_aria_disabled b = Js.Bool true
     ∧ Vue.attr_present (VButton.bind_aria_disabled b) = true
     ∧ VButton.bind_disabled b = Js.Undefined
     ∧ Vue.boolean_attr_present (VButton.bind_disabled b) = false)
  ∧ (VButton.focusableWhenDisabled props = false → VButton.as_ props = "VLink" →
     VButton.bind_disabled b = Js.Undefined
     ∧ Vue.boolean_attr_present (VButton.bind_disabled b) = false
     ∧ VButton.bind_aria_disabled b = Js.Undefined
     ∧ Vue.attr_present (VButton.bind_aria_disabled b) = false)
  ∧ (VButton.focusableWhenDisabled props = false → VButton.as_ props = "button" →
     VButton.bind_disabled b = Js.Bool true
     ∧ Vue.boolean_attr_present (VButton.bind_disabled b) = true
     ∧ VButton.bind_aria_disabled b = Js.Undefined
     ∧ Vue.attr_present (VButton.bind_aria_disabled b) = false).
Proof.
  intros Hd b. subst b. simpl.
  rewrite ariaDisabled_value, disabledAttribute_value, Hd.
  repeat split; intros; repeat match goal with H : _ = _ |- _ => rewrite H end;
    reflexivity.
Qed.

Lemma disabled_resolution_witness :
  let focusable := VButton.mkProps "a" "filled-dark" None "medium" true true "submit" [] false false false in
  let link := VButton.mkProps "VLink" "filled-dark" None "medium" true false "button" [] false false false in
  let button := VButton.mkProps "button" "filled-dark" None "medium" true false "button" [] false false false in
  (VButton.disabled focusable = true
   ∧ VButton.bind_aria_disabled (VButton.template focusable ∅) = Js.Bool true
   ∧ VButton.bind_disabled (VButton.template focusable ∅) = Js.Undefined)
  ∧ (VButton.disabled link = true
     ∧ VButton.bind_disabled (VButton.template link ∅) = Js.Undefined
     ∧ VButton.bind_aria_disabled (VButton.template link ∅) = Js.Undefined)
  ∧ (VButton.disabled button = true
     ∧ VButton.bind_disabled (VButton.template button ∅) = Js.Bool true
     ∧ VButton.bind_aria_disabled (VButton.template button ∅) = Js.Undefined).
Proof.
  intros focusable link button.
  split; [|split].
  - split; [reflexivity|].
    destruct (disabled_resolution focusable ∅ eq_refl) as [H _].
    destruct (H eq_refl) as (Ha & _ & Hd & _). exact (conj Ha Hd).
  - split; [reflexivity|].
    destruct (disabled_resolution link ∅ eq_refl) as (_ & H & _).
    destruct (H eq_refl eq_refl) as (Hd & _ & Ha & _). exact (conj Hd Ha).
  - split; [reflexivity|].
    destruct (disabled_resolution button ∅ eq_refl) as (_ & _ & H).
    destruct (H eq_refl eq_refl) as (Hd & _ & Ha & _). exact (conj Hd Ha).
Defined.

(** C8: rendered as the raw hyperlink [a], a disabled control that does
    not stay focusable still gets the [disabled] attribute; the attribute
    is dropped for [VLink] only. *)
Theorem anchor_keeps_disabled (props : VButton.Props) (attrs : gmap string Js.value) :
  VButton.as_ props = "a" →
  VButton.disabled props = true →
  VButton.focusableWhenDisabled props = false →
  VButton.supportsDisabledAttribute props = true
  ∧ VButton.bind_disabled (VButton.template props attrs) = Js.Bool true
  ∧ Vue.boolean_attr_present (VButton.bind_disabled (VButton.template props attrs)) = true
  ∧ ∀ other : VButton.Props,
      VButton.disabled other = true →
      VButton.focusableWhenDisabled other = false →
      (VButton.bind_disabled (VButton.template other attrs) = Js.Undefined
       ↔ VButton.as_ other = "VLink").
Proof.
  intros Ha Hd Hf. simpl.
  rewrite disabledAttribute_value, Hd, Hf, Ha.
  unfold VButton.supportsDisabledAttribute. rewrite Ha.
  split; [reflexivity|]. split; [reflexivity|]. split; [reflexivity|].
  intros other Hod Hof. rewrite disabledAttribute_value, Hod, Hof. simpl.
  case_bool_decide as Hl; split; try done.
Qed.

Lemma anchor_keeps_disabled_witness :
  let anchor := VButton.mkProps "a" "filled-dark" None "medium" true false "button" [] false false false in
  VButton.as_ anchor = "a"
  ∧ VButton.bind_disabled (VButton.template anchor ∅) = Js.Bool true.
Proof.
  intros anchor. split; [reflexivity|].
  exact (proj1 (proj2 (anchor_keeps_disabled anchor ∅ eq_refl eq_refl eq_refl))).
Defined.

(** C9: whatever the props and attributes, [aria-disabled] and [disabled]
    are never both bound to a value that renders the attribute. *)
Theorem disabled_attributes_exclusive (props : VButton.Props) (attrs : gmap string Js.value) :
  let b := VButton.template props attrs in
  Vue.attr_present (VButton.bind_aria_disabled b)
  && Vue.boolean_attr_present (VButton.bind_disabled b) = false
  ∧ (VButton.bind_aria_disabled b = Js.Undefined
     ∨ VButton.bind_disabled b = Js.Undefined).
Proof.
  simpl. rewrite ariaDisabled_value, disabledAttribute_value.
  destruct (VButton.disabled props), (VButton.focusableWhenDisabled props),
    (bool_decide (VButton.as_ props = "VLink")); simpl; auto.
Qed.

(** C5: the [type] binding is the [type] prop when the control is rendered
    as [button], and is absent when it is rendered as [VLink] or [a]. *)
Theorem type_attribute (props : VButton.Props) (attrs : gmap string Js.value) :
  let b := VButton.template props attrs in
  (VButton.as_ props = "button" → VButton.bind_type b = Some (VButton.type props))
  ∧ (VButton.as_ props = "VLink" ∨ VButton.as_ props = "a" → VButton.bind_type b = None).
Proof.
  simpl. unfold VButton.typeAttribute. split.
  - intros ->. reflexivity.
  - intros H. rewrite (proj2 (includes_spec _ _)); [reflexivity|].
    rewrite !elem_of_cons. tauto.
Qed.

Lemma type_attribute_witness :
  let submit := VButton.mkProps "button" "filled-dark" None "medium" false false "submit" [] false false false in
  let link := VButton.mkProps "VLink" "filled-dark" None "medium" false false "submit" [] false false false in
  let anchor := VButton.mkProps "a" "filled-dark" None "medium" false false "submit" [] false false false in
  VButton.bind_type (VButton.template submit ∅) = Some "submit"
  ∧ VButton.bind_type (VButton.template link ∅) = None
  ∧ VButton.bind_type (VButton.template anchor ∅) = None.
Proof.
  intros submit link anchor. split; [|split].
  - exact (proj1 (type_attribute submit ∅) eq_refl).
  - exact (proj2 (type_attribute link ∅) (or_introl eq_refl)).
  - exact (proj2 (type_attribute anchor ∅) (or_intror eq_refl)).
Defined.

(** ** Strings: append, join and split *)

Lemma app_cons (c : ascii) (s t : string) : String c s +:+ t = String c (s +:+ t).
Proof. reflexivity. Qed.

Lemma app_empty_l (s : string) : "" +:+ s = s.
Proof. reflexivity. Qed.

Lemma app_empty_r (s : string) : s +:+ "" = s.
Proof. induction s as [|c s IH]; [reflexivity|]. by rewrite app_cons, IH. Qed.

Lemma app_assoc_str (s t u : string) : (s +:+ t) +:+ u = s +:+ t +:+ u.
Proof. induction s as [|c s IH]; [reflexivity|]. by rewrite !app_cons, IH. Qed.

Lemma join_cons (sep x y : string) (rest : list string) :
  Js.join sep (x :: y :: rest) = x +:+ sep +:+ Js.join sep (y :: rest).
Proof. reflexivity. Qed.

Lemma split_no_sep (sep : ascii) (s : string) :
  Js.occurs sep s = false → Js.split sep s = [s].
Proof.
  induction s as [|c s IH]; simpl; [done|].
  intros [Hc Hs]%orb_false_elim. by rewrite Hc, (IH Hs).
Qed.

Lemma split_app_sep (sep : ascii) (s t : string) :
  Js.occurs sep s = false →
  Js.split sep (s +:+ String sep t) = s :: Js.split sep t.
Proof.
  induction s as [|c s IH]; simpl.
  - intros _. by rewrite Ascii.eqb_refl.
  - intros [Hc Hs]%orb_false_elim. by rewrite Hc, (IH Hs).
Qed.

(** Splitting a joined array at the separator gives the array back, when
    no element holds the separator. *)
Lemma split_join (sep : ascii) (arr : list string) :
  arr ≠ [] →
  Forall (λ s, Js.occurs sep s = false) arr →
  Js.split sep (Js.join (String sep "") arr) = arr.
Proof.
  induction arr as [|x [|y rest] IH]; [done| |].
  - intros _ [Hx _]%Forall_cons. simpl. by apply split_no_sep.
  - intros _ [Hx Hrest]%Forall_cons.
    rewrite join_cons, app_cons, app_empty_l, (split_app_sep _ _ _ Hx).
    by rewrite IH.
Qed.

(** ** Connection classes *)

Lemma connectionClasses_foldl (flags : list string) (n : nat) (acc : string) :
  (foldl (λ acc flag,
            (S acc.1, acc.2 +:+ (if acc.1 is O then "" else " ") +:+ "connection-" +:+ flag))
         (S n, acc) flags).2
  = acc +:+ Js.join "" (map (λ connection, " connection-" +:+ connection) flags).
Proof.
  revert n acc. induction flags as [|x [|y rest] IH]; intros n acc.
  - simpl. by rewrite app_empty_r.
  - reflexivity.
  - change (foldl ?f ?a (x :: ?l)) with (foldl f (f a x) l).
    cbn [fst snd]. rewrite IH. cbn [map].
    rewrite (join_cons "" _ _), app_empty_l, !app_assoc_str. reflexivity.
Qed.

Lemma join_space_tokens (x : string) (rest : list string) :
  Js.join " " (map (λ connection, "connection-" +:+ connection) (x :: rest))
  = ("connection-" +:+ x)
    +:+ Js.join "" (map (λ connection, " connection-" +:+ connection) rest).
Proof.
  revert x. induction rest as [|y rest IH]; intros x.
  - simpl. by rewrite app_empty_r.
  - cbn [map] in *. rewrite join_cons, IH. f_equal.
    destruct rest as [|z rest]; [simpl; by rewrite app_empty_r|].
    cbn [map]. rewrite (join_cons "" _ _), app_empty_l.
    rewrite <- !app_assoc_str. reflexivity.
Qed.

Lemma occurs_app (c : ascii) (s t : string) :
  Js.occurs c (s +:+ t) = Js.occurs c s || Js.occurs c t.
Proof.
  induction s as [|d s IH]; [reflexivity|].
  rewrite app_cons. simpl. by rewrite IH, orb_assoc.
Qed.

(** C7: the connection class string is the tokens [connection-<flag>] of
    the flags, in input order, with a single space between two tokens;
    [start, bottom] gives [connection-start connection-bottom]. *)
Theorem connection_classes (props : VButton.Props) :
  VButton.connectionStyles props = Spec.connectionClasses (VButton.connections props)
  ∧ (VButton.connections props = ["start"; "bottom"] →
     VButton.connectionStyles props = "connection-start connection-bottom")
  ∧ (VButton.connections props ≠ [] →
     Forall (λ flag, Js.occurs " " flag = false) (VButton.connections props) →
     Js.split " " (VButton.connectionStyles props)
     = map (λ flag, "connection-" +:+ flag) (VButton.connections props)).
Proof.
  unfold VButton.connectionStyles, Spec.connectionClasses.
  split; [|split].
  - destruct (VButton.connections props) as [|x rest]; [reflexivity|].
    change (foldl ?f ?a (x :: ?l)) with (foldl f (f a x) l).
    cbn [fst snd]. rewrite connectionClasses_foldl, join_space_tokens.
    by rewrite !app_empty_l.
  - intros ->. reflexivity.
  - intros Hne Hflags. apply split_join.
    + by destruct (VButton.connections props).
    + apply Forall_map. eapply Forall_impl; [exact Hflags|].
      intros flag Hflag. simpl. by rewrite occurs_app, Hflag.
Qed.

Lemma connection_classes_witness :
  let props := VButton.mkProps "button" "filled-dark" None "medium" false false "button"
                 ["start"; "bottom"] false false false in
  VButton.connections props = ["start"; "bottom"]
  ∧ VButton.connectionStyles props = "connection-start connection-bottom"
  ∧ Js.split " " (VButton.connectionStyles props) = ["connection-start"; "connection-bottom"].
Proof.
  intros props.
  destruct (connection_classes props) as (_ & Hexample & Hsplit).
  split; [reflexivity|]. split.
  - exact (Hexample eq_refl).
  - apply Hsplit; [discriminate|]. repeat constructor.
Defined.

(** ** Active state and the pressed variant *)

Lemma isActive_truthy (props : VButton.Props) (attrs : gmap string Js.value) :
  Js.truthy (VButton.isActive props attrs)
  = bool_decide (VButton.pressed props = Some true)
    || Js.truthy (Js.get attrs "aria-pressed")
    || Js.truthy (Js.get attrs "aria-expanded").
Proof.
  unfold VButton.isActive. rewrite !or_truthy. do 2 f_equal.
  by destruct (VButton.pressed props) as [[]|].
Qed.

(** C2: the control is active exactly when [pressed] is [true] or the
    [aria-pressed] or [aria-expanded] attribute is truthy; an active
    control whose variant is [bordered-white], [bordered-tx] or
    [transparent-dark] gets the variant followed by [-pressed] as its
    class, and every other control (not active, or any other variant,
    [plain--avoid] among them) gets the variant itself. *)
Theorem variant_resolution (props : VButton.Props) (attrs : gmap string Js.value) :
  let active := Js.truthy (VButton.isActive props attrs) in
  let v := VButton.variant props in
  (active = true ↔
     VButton.pressed props = Some true
     ∨ Js.truthy (Js.get attrs "aria-pressed") = true
     ∨ Js.truthy (Js.get attrs "aria-expanded") = true)
  ∧ (active = true →
     v = "bordered-white" ∨ v = "bordered-tx" ∨ v = "transparent-dark" →
     VButton.variantClass props attrs = v +:+ "-pressed")
  ∧ (active = false ∨ ¬ (v = "bordered-white" ∨ v = "bordered-tx" ∨ v = "transparent-dark") →
     VButton.variantClass props attrs = v)
  ∧ (v = "plain--avoid" → VButton.variantClass props attrs = "plain--avoid")
  ∧ head (VButton.bind_class (VButton.template props attrs))
    = Some (VButton.variantClass props attrs).
Proof.
  intros active v. subst active v. split; [|split; [|split; [|split]]].
  - rewrite isActive_truthy, !orb_true_iff, bool_decide_eq_true. tauto.
  - intros Hact Hv. unfold VButton.variantClass. rewrite Hact.
    rewrite (proj2 (includes_spec _ _)); [reflexivity|].
    rewrite !elem_of_cons. tauto.
  - intros H. unfold VButton.variantClass.
    destruct (Js.truthy (VButton.isActive props attrs)); [|reflexivity].
    destruct H as [H|H]; [discriminate|].
    rewrite (proj2 (includes_false _ _)); [reflexivity|].
    rewrite !elem_of_cons, elem_of_nil. tauto.
  - intros Hv. unfold VButton.variantClass. rewrite Hv.
    by rewrite andb_false_r.
  - reflexivity.
Qed.

Lemma variant_resolution_witness :
  let menu := VButton.mkProps "button" "bordered-tx" None "medium" false false "button" [] false false false in
  let plain := VButton.mkProps "button" "plain--avoid" (Some true) "medium" false false "button" [] false false false in
  let expanded : gmap string Js.value := {[ "aria-expanded" := Js.Str "true" ]} in
  Js.truthy (VButton.isActive menu expanded) = true
  ∧ VButton.variantClass menu expanded = "bordered-tx-pressed"
  ∧ VButton.variantClass menu ∅ = "bordered-tx"
  ∧ VButton.variantClass plain expanded = "plain--avoid".
Proof.
  intros menu plain expanded.
  assert (Hact : Js.truthy (VButton.isActive menu expanded) = true).
  { apply (proj1 (variant_resolution menu expanded)).
    right; right. vm_compute. reflexivity. }
  split; [exact Hact|]. split; [|split].
  - apply (proj1 (proj2 (variant_resolution menu expanded)) Hact).
    right; left; reflexivity.
  - apply (proj1 (proj2 (proj2 (variant_resolution menu ∅)))).
    left. vm_compute. reflexivity.
  - apply (proj1 (proj2 (proj2 (proj2 (variant_resolution plain expanded))))).
    reflexivity.
Defined.

(** ** Focus ring classes *)

Lemma focus_conditions_exclusive (v : string) :
  Js.startsWith v "filled-"
  && (Js.startsWith v "bordered-" || Js.startsWith v "transparent-" || String.eqb v "plain")
  = false.
Proof.
  unfold Js.startsWith. destruct v as [|c v]; [reflexivity|].
  cbn [String.prefix]. destruct (ascii_dec "f" c) as [<-|Hne]; [|reflexivity].
  cbv -[String.prefix]. by destruct (String.prefix _ _).
Qed.

(** C10: no variant satisfies both the condition of [focus-slim-filled]
    and the condition of [focus-slim-tx], so the class object turns on at
    most one of the two classes; [plain--avoid] satisfies neither. *)
Theorem focus_ring_exclusive (props : VButton.Props) (attrs : gmap string Js.value) :
  VButton.isFocusSlimFilled props && VButton.isFocusSlimTx props = false
  ∧ (List.length (filter (λ c, c ∈ ["focus-slim-filled"; "focus-slim-tx"])
        (Vue.class_object (VButton.bind_class_object (VButton.template props attrs)))) ≤ 1)%nat
  ∧ (VButton.variant props = "plain--avoid" →
     VButton.isFocusSlimFilled props = false ∧ VButton.isFocusSlimTx props = false).
Proof.
  assert (Hex := focus_conditions_exclusive (VButton.variant props)).
  split; [exact Hex|]. split.
  - cbn [VButton.template VButton.bind_class_object].
    change (VButton.isFocusSlimFilled props && VButton.isFocusSlimTx props = false) in Hex.
    destruct (VButton.iconOnly props), (VButton.hasIconStart props),
      (VButton.hasIconEnd props), (VButton.isPlainDangerous props),
      (VButton.isFocusSlimFilled props), (VButton.isFocusSlimTx props);
      try discriminate Hex; vm_compute; lia.
  - unfold VButton.isFocusSlimFilled, VButton.isFocusSlimTx. intros ->. by vm_compute.
Qed.

Lemma focus_ring_exclusive_witness :
  let plain := VButton.mkProps "button" "plain--avoid" None "medium" false false "button" [] false false false in
  VButton.variant plain = "plain--avoid"
  ∧ VButton.isFocusSlimFilled plain = false
  ∧ VButton.isFocusSlimTx plain = false.
Proof.
  intros plain. split; [reflexivity|].
  exact (proj2 (proj2 (focus_ring_exclusive plain ∅)) eq_refl).
Defined.

(** ** The migration warning *)

Section WatchProperties.

Variable skipToContentTargetId : string.


Lemma onAsChange_misuse (render : VButton.Props * gmap string Js.value)
    (console : list string) :
  VButton.onAsChange skipToContentTargetId render.2 (VButton.as_ render.1) console
  = console ++ (if Spec.misuse skipToContentTargetId render
                then [VButton.warning (VButton.as_ render.1)] else []).
Proof.
  unfold VButton.onAsChange, Spec.misuse, Js.includes, Js.strict_neq.
  rewrite (bool_decide_ext (VButton.as_ render.1 ∈ ["a"; "NuxtLink"])
             (VButton.as_ render.1 = "a" ∨ VButton.as_ render.1 = "NuxtLink")).
  - destruct (_ && _); [reflexivity | by rewrite app_nil_r].
  - rewrite !elem_of_cons, elem_of_nil. tauto.
Qed.

Lemma watch_snoc (renders : list (VButton.Props * gmap string Js.value))
    (render : VButton.Props * gmap string Js.value) :
  VButton.watch skipToContentTargetId (renders ++ [render])
  = VButton.job skipToContentTargetId (VButton.watch skipToContentTargetId renders) render.
Proof. unfold VButton.watch. by rewrite foldl_app. Qed.

(** The watcher remembers the rendering form of the last render. *)
Lemma watch_oldValue (renders : list (VButton.Props * gmap string Js.value)) :
  VButton.oldValue (VButton.watch skipToContentTargetId renders)
  = VButton.as_ ∘ fst <$> last renders.
Proof.
  induction renders as [|render renders IH] using rev_ind; [reflexivity|].
  rewrite watch_snoc, last_snoc. unfold VButton.job.
  case_bool_decide as Hold; [exact Hold | reflexivity].
Qed.

Lemma changed_snoc (renders : list (VButton.Props * gmap string Js.value))
    (render : VButton.Props * gmap string Js.value) :
  Spec.changed (renders ++ [render]) (length renders)
  = bool_decide (VButton.oldValue (VButton.watch skipToContentTargetId renders)
                 ≠ Some (VButton.as_ render.1)).
Proof.
  rewrite watch_oldValue.
  destruct renders as [|r0 renders] using rev_ind.
  - reflexivity.
  - clear IHrenders. rewrite last_snoc, length_app, Nat.add_1_r. simpl.
    apply bool_decide_ext.
    rewrite <- app_assoc. simpl.
    rewrite (list_lookup_middle renders [render] r0 (length renders) eq_refl).
    rewrite (lookup_app_r renders) by lia.
    replace (S (length renders) - length renders) with 1 by lia.
    reflexivity.
Qed.

Lemma changed_app_l (renders more : list (VButton.Props * gmap string Js.value))
    (i : nat) :
  i < length renders → Spec.changed (renders ++ more) i = Spec.changed renders i.
Proof.
  intros Hi. destruct i as [|j]; [reflexivity|]. simpl.
  by rewrite !lookup_app_l by lia.
Qed.

Lemma warningAt_app_l (renders more : list (VButton.Props * gmap string Js.value))
    (i : nat) :
  i < length renders →
  Spec.warningAt skipToContentTargetId (renders ++ more) i
  = Spec.warningAt skipToContentTargetId renders i.
Proof.
  intros Hi. unfold Spec.warningAt.
  by rewrite lookup_app_l, changed_app_l by lia.
Qed.

Lemma omap_ext_in {A B : Type} (f g : A → option B) (l : list A) :
  (∀ x, x ∈ l → f x = g x) → omap f l = omap g l.
Proof.
  induction l as [|x l IH]; intros Hfg; [reflexivity|]. csimpl.
  rewrite (Hfg x) by left. rewrite IH; [reflexivity|].
  intros y Hy. apply Hfg. by right.
Qed.

Lemma warnings_snoc (renders : list (VButton.Props * gmap string Js.value))
    (render : VButton.Props * gmap string Js.value) :
  Spec.warnings skipToContentTargetId (renders ++ [render])
  = Spec.warnings skipToContentTargetId renders
    ++ (if Spec.changed (renders ++ [render]) (length renders)
           && Spec.misuse skipToContentTargetId render
        then [VButton.warning (VButton.as_ render.1)] else []).
Proof.
  unfold Spec.warnings.
  rewrite length_app, Nat.add_1_r, seq_S, omap_app. simpl. f_equal.
  - apply omap_ext_in. intros i [_ Hi]%elem_of_seq. by apply warningAt_app_l.
  - unfold Spec.warningAt. rewrite lookup_app_r by lia. rewrite Nat.sub_diag. simpl.
    by destruct (_ && _).
Qed.

Lemma job_console (w : VButton.Watcher) (render : VButton.Props * gmap string Js.value) :
  VButton.console (VButton.job skipToContentTargetId w render)
  = VButton.console w
    ++ (if bool_decide (VButton.oldValue w ≠ Some (VButton.as_ render.1))
           && Spec.misuse skipToContentTargetId render
        then [VButton.warning (VButton.as_ render.1)] else []).
Proof.
  unfold VButton.job. case_bool_decide as Hold.
  - rewrite bool_decide_eq_false_2 by tauto. simpl. by rewrite app_nil_r.
  - rewrite bool_decide_eq_true_2 by done. simpl. apply onAsChange_misuse.
Qed.

End WatchProperties.

(** C6: over the renders of a control, first render included, the console
    receives one warning for each render that changes the rendering form
    to [a] or [NuxtLink] while the href is not [#] followed by the
    skip-to-content id, and nothing else: no warning when the href is that
    fragment, when the rendering form is another one, or when the
    rendering form has not changed. *)
Theorem migration_warning (skipToContentTargetId : string)
    (renders : list (VButton.Props * gmap string Js.value)) :
  VButton.console (VButton.watch skipToContentTargetId renders)
  = Spec.warnings skipToContentTargetId renders
  ∧ ∀ (w : VButton.Watcher) (props : VButton.Props) (attrs : gmap string Js.value),
      VButton.console (VButton.job skipToContentTargetId w (props, attrs))
      = VButton.console w
        ++ (if bool_decide (VButton.oldValue w ≠ Some (VButton.as_ props))
               && bool_decide (VButton.as_ props = "a" ∨ VButton.as_ props = "NuxtLink")
               && bool_decide (Js.get attrs "href" ≠ Js.Str ("#" +:+ skipToContentTargetId))
            then [VButton.warning (VButton.as_ props)] else []).
Proof.
  split.
  - induction renders as [|render renders IH] using rev_ind; [reflexivity|].
    rewrite watch_snoc, job_console, warnings_snoc, IH.
    by rewrite (changed_snoc skipToContentTargetId).
  - intros w props attrs. rewrite job_console. unfold Spec.misuse. simpl.
    by rewrite andb_assoc.
Qed.

(** A run of the watcher: the first render warns, a re-render with the
    same rendering form does not, neither does [VLink], [NuxtLink] warns
    again, and [a] with the skip-to-content href does not. *)
Example migration_warning_run :
  VButton.console
    (VButton.watch "content"
       [ (VButton.mkProps "a" "filled-gray" None "medium" false false "button" [] false false false,
          {[ "href" := Js.Str "/about" ]});
         (VButton.mkProps "a" "filled-gray" None "medium" false false "button" [] false false false,
          {[ "href" := Js.Str "/about" ]});
         (VButton.mkProps "VLink" "filled-gray" None "medium" false false "button" [] false false false,
          {[ "href" := Js.Str "/about" ]});
         (VButton.mkProps "NuxtLink" "filled-gray" None "medium" false false "button" [] false false false,
          ∅);
         (VButton.mkProps "a" "filled-gray" None "medium" false false "button" [] false false false,
          {[ "href" := Js.Str "#content" ]}) ])
  = [ VButton.warning "a"; VButton.warning "NuxtLink" ].
Proof. vm_compute. reflexivity. Qed.

(** ** The safety wall *)

Lemma back_target (backToSearchPath : Js.value) :
  VSafetyWall.target backToSearchPath VSafetyWall.Back
  = Some (Js.or backToSearchPath (Js.Str "/")).
Proof.
  unfold VSafetyWall.target, VSafetyWall.rendered. simpl.
  match goal with
  | |- VButton.linkProps _ ?attrs !! _ = _ =>
      change (VButton.linkProps _ attrs)
        with ({[ "href" := Js.get attrs "href" ]} : gmap string Js.value)
  end.
  rewrite lookup_singleton_eq. f_equal.
Qed.

(** C3, as the code has it: a mouse-down on the back button sends exactly
    one analytics event, [GO_BACK_FROM_SENSITIVE_RESULT], whose payload
    holds the content id and the sensitivity reasons joined by commas, and
    does not navigate by itself; no other event on the back button sends
    anything, so the click that follows the link, which is all an
    activation from the keyboard fires, visits the target without an
    analytics event; the back button's navigation target is the recorded
    return-to-search path, or [/] when none is recorded. *)
Theorem back_action (props : VSafetyWall.Props) (backToSearchPath : Js.value)
    (w : VSafetyWall.World) :
  let w' := VSafetyWall.handleBack props w in
  (∃ payload : gmap string Js.value,
     VSafetyWall.analytics w'
     = VSafetyWall.analytics w ++ [("GO_BACK_FROM_SENSITIVE_RESULT", payload)]
     ∧ payload !! "id" = Some (Js.Str (VSafetyWall.id props))
     ∧ payload !! "sensitivities"
       = Some (Js.Str (Js.join "," (VSafetyWall.sensitivity props))))
  ∧ length (VSafetyWall.analytics w') = S (length (VSafetyWall.analytics w))
  ∧ VSafetyWall.emitted w' = VSafetyWall.emitted w
  ∧ VSafetyWall.visited w' = VSafetyWall.visited w
  ∧ VSafetyWall.listener props VSafetyWall.Back VSafetyWall.mousedown w = w'
  ∧ (∀ path : string, backToSearchPath = Js.Str path → path ≠ "" →
       VSafetyWall.target backToSearchPath VSafetyWall.Back = Some (Js.Str path))
  ∧ (backToSearchPath = Js.Undefined ∨ backToSearchPath = Js.Null
     ∨ backToSearchPath = Js.Str "" →
       VSafetyWall.target backToSearchPath VSafetyWall.Back = Some (Js.Str "/"))
  ∧ VSafetyWall.dispatch props backToSearchPath VSafetyWall.Back VSafetyWall.mousedown w
    = w'
  ∧ (∀ e : VSafetyWall.event, e ≠ VSafetyWall.mousedown →
       VSafetyWall.listener props VSafetyWall.Back e w = w
       ∧ VSafetyWall.analytics
           (VSafetyWall.dispatch props backToSearchPath VSafetyWall.Back e w)
         = VSafetyWall.analytics w)
  ∧ (∀ href : Js.value,
       VSafetyWall.target backToSearchPath VSafetyWall.Back = Some href →
       VSafetyWall.dispatch props backToSearchPath VSafetyWall.Back VSafetyWall.click w
       = VSafetyWall.navigate href w).
Proof.
  intros w'. subst w'.
  split; [|split; [|split; [|split; [|split; [|split; [|split; [|split; [|split]]]]]]]].
  - eexists. split; [reflexivity|]. split; by simplify_map_eq.
  - simpl. rewrite length_app. simpl. lia.
  - reflexivity.
  - reflexivity.
  - reflexivity.
  - intros path -> Hpath. rewrite back_target. f_equal. unfold Js.or. simpl.
    destruct (String.eqb_spec path ""); [done | reflexivity].
  - intros Hnone. rewrite back_target.
    by destruct Hnone as [->|[->| ->]].
  - reflexivity.
  - intros e He. unfold VSafetyWall.dispatch, VSafetyWall.defaultAction.
    rewrite back_target. by destruct e.
  - intros href Hhref. unfold VSafetyWall.dispatch, VSafetyWall.defaultAction.
    rewrite Hhref. reflexivity.
Qed.

Lemma back_action_witness :
  let props := VSafetyWall.mkProps ["sensitive_text"; "user_reported_sensitive"] "f9384235" in
  let w0 := VSafetyWall.mkWorld [] [] [] in
  let w := VSafetyWall.handleBack props w0 in
  (snd <$> VSafetyWall.analytics w) ≫= (λ payload, option_list (payload !! "sensitivities"))
  = [Js.Str "sensitive_text,user_reported_sensitive"]
  ∧ "/search?q=cat" ≠ ""
  ∧ VSafetyWall.target (Js.Str "/search?q=cat") VSafetyWall.Back = Some (Js.Str "/search?q=cat")
  ∧ VSafetyWall.target (Js.Str "") VSafetyWall.Back = Some (Js.Str "/")
  ∧ VSafetyWall.click ≠ VSafetyWall.mousedown
  ∧ VSafetyWall.analytics
      (VSafetyWall.dispatch props (Js.Str "/search?q=cat") VSafetyWall.Back
         VSafetyWall.click w0) = []
  ∧ VSafetyWall.dispatch props (Js.Str "/search?q=cat") VSafetyWall.Back
      VSafetyWall.click w0
    = VSafetyWall.navigate (Js.Str "/search?q=cat") w0.
Proof.
  intros props w0 w. split; [by vm_compute|].
  split; [discriminate|].
  destruct (back_action props (Js.Str "/search?q=cat") w0)
    as (_ & _ & _ & _ & _ & Hpath & _ & _ & Hother & Hclick).
  assert (Htarget : VSafetyWall.target (Js.Str "/search?q=cat") VSafetyWall.Back
                    = Some (Js.Str "/search?q=cat")).
  { apply Hpath; [reflexivity | discriminate]. }
  assert (Hevent : VSafetyWall.click ≠ VSafetyWall.mousedown) by discriminate.
  split; [exact Htarget|]. split; [|split; [exact Hevent|split]].
  - destruct (back_action props (Js.Str "") w0)
      as (_ & _ & _ & _ & _ & _ & Hnone & _).
    apply Hnone. right; right; reflexivity.
  - exact (proj2 (Hother VSafetyWall.click Hevent)).
  - exact (Hclick (Js.Str "/search?q=cat") Htarget).
Defined.

(** C3 as the specification states it fails for a click on the back
    button: the browser follows the link to the target and no analytics
    event has been sent. *)
Lemma back_action_counterexample :
  let props := VSafetyWall.mkProps ["sensitive_text"] "f9384235" in
  let w := VSafetyWall.dispatch props (Js.Str "/search?q=cat") VSafetyWall.Back
             VSafetyWall.click (VSafetyWall.mkWorld [] [] []) in
  VSafetyWall.listener props VSafetyWall.Back VSafetyWall.click
    (VSafetyWall.mkWorld [] [] []) = VSafetyWall.mkWorld [] [] []
  ∧ VSafetyWall.visited w = [Js.Str "/search?q=cat"]
  ∧ VSafetyWall.analytics w = []
  ∧ length (VSafetyWall.analytics w) ≠ 1.
Proof.
  intros props w. split; [reflexivity|]. split; [by vm_compute|].
  split; [by vm_compute|]. vm_compute. discriminate.
Qed.

(** C4: the show action raises exactly one [reveal] event, without
    payload, sends no analytics event and navigates nowhere: the handler
    leaves the visited locations as they are, and the show button is a
    native [button] that has no target. *)
Theorem show_action (props : VSafetyWall.Props) (backToSearchPath : Js.value)
    (w : VSafetyWall.World) :
  let w' := VSafetyWall.handleShow w in
  VSafetyWall.emitted w' = VSafetyWall.emitted w ++ [("reveal", [])]
  ∧ VSafetyWall.analytics w' = VSafetyWall.analytics w
  ∧ VSafetyWall.visited w' = VSafetyWall.visited w
  ∧ VSafetyWall.listener props VSafetyWall.Show VSafetyWall.click w = w'
  ∧ VButton.bind_is (VSafetyWall.rendered backToSearchPath VSafetyWall.Show)
    = VButton.Native "button"
  ∧ VSafetyWall.target backToSearchPath VSafetyWall.Show = None.
Proof. repeat split. Qed.

(** With the link's own action: pressing and clicking the back button
    sends the event once and then visits the target; clicking the show
    button only raises [reveal]. *)
Lemma click_through (props : VSafetyWall.Props) (backToSearchPath : Js.value)
    (w : VSafetyWall.World) :
  VSafetyWall.dispatch props backToSearchPath VSafetyWall.Back VSafetyWall.click
    (VSafetyWall.dispatch props backToSearchPath VSafetyWall.Back VSafetyWall.mousedown w)
  = VSafetyWall.navigate (Js.or backToSearchPath (Js.Str "/"))
      (VSafetyWall.handleBack props w)
  ∧ VSafetyWall.dispatch props backToSearchPath VSafetyWall.Show VSafetyWall.click w
    = VSafetyWall.handleShow w.
Proof.
  split; [|reflexivity].
  unfold VSafetyWall.dispatch, VSafetyWall.defaultAction.
  by rewrite back_target.
Qed.

(** * Further properties of the two components *)

(** ** [typeAttribute] *)

(** The [type] binding is absent exactly for [VLink] and [a]; every other
    rendering form, [NuxtLink] among them, carries the [type] prop. *)
Theorem type_attribute_absent_iff (props : VButton.Props) (attrs : gmap string Js.value) :
  (VButton.bind_type (VButton.template props attrs) = None
   ↔ VButton.as_ props = "VLink" ∨ VButton.as_ props = "a")
  ∧ (VButton.as_ props ≠ "VLink" → VButton.as_ props ≠ "a" →
     VButton.bind_type (VButton.template props attrs) = Some (VButton.type props)).
Proof.
  simpl. unfold VButton.typeAttribute.
  destruct (Js.includes ["VLink"; "a"] (VButton.as_ props)) eqn:Hin.
  - apply includes_spec in Hin. rewrite !elem_of_cons, elem_of_nil in Hin.
    split; [tauto|]. intros Hl Ha. tauto.
  - apply includes_false in Hin. rewrite !elem_of_cons, elem_of_nil in Hin.
    split; [|done]. split; [discriminate | tauto].
Qed.

Lemma type_attribute_absent_iff_witness :
  let router := VButton.with_as "NuxtLink" (VButton.defaults "filled-dark" "medium") in
  VButton.as_ router ≠ "VLink" ∧ VButton.as_ router ≠ "a"
  ∧ VButton.bind_type (VButton.template router ∅) = Some "button".
Proof.
  intros router.
  assert (Hl : VButton.as_ router ≠ "VLink") by discriminate.
  assert (Ha : VButton.as_ router ≠ "a") by discriminate.
  split; [exact Hl|]. split; [exact Ha|].
  exact (proj2 (type_attribute_absent_iff router ∅) Hl Ha).
Defined.

(** ** [ariaDisabled] and [disabledAttribute] *)

(** Both bindings are [true] or [undefined], never [false], so
    [aria-disabled="false"] is never rendered; a control that is not
    disabled gets neither attribute. *)
Theorem disabled_bindings_never_false (props : VButton.Props) (attrs : gmap string Js.value) :
  let b := VButton.template props attrs in
  (VButton.bind_aria_disabled b = Js.Bool true ∨ VButton.bind_aria_disabled b = Js.Undefined)
  ∧ (VButton.bind_disabled b = Js.Bool true ∨ VButton.bind_disabled b = Js.Undefined)
  ∧ (VButton.disabled props = false →
     Vue.attr_present (VButton.bind_aria_disabled b) = false
     ∧ Vue.boolean_attr_present (VButton.bind_disabled b) = false).
Proof.
  simpl. rewrite ariaDisabled_value, disabledAttribute_value.
  split; [|split].
  - destruct (_ && _); auto.
  - destruct (_ && _); auto.
  - intros ->. done.
Qed.

Lemma disabled_bindings_never_false_witness :
  let enabled := VButton.mkProps "a" "filled-dark" None "medium" false true "button" [] false false false in
  VButton.disabled enabled = false
  ∧ Vue.attr_present (VButton.bind_aria_disabled (VButton.template enabled ∅)) = false
  ∧ Vue.boolean_attr_present (VButton.bind_disabled (VButton.template enabled ∅)) = false.
Proof.
  intros enabled. split; [reflexivity|].
  exact (proj2 (proj2 (disabled_bindings_never_false enabled ∅)) eq_refl).
Defined.

(** [aria-disabled] is rendered exactly for a disabled control that stays
    focusable, [disabled] exactly for a disabled control that does not and
    is not a [VLink]; so a control shows no sign of being disabled exactly
    when it is not disabled or is a [VLink] that does not stay focusable. *)
Theorem disabled_indication_iff (props : VButton.Props) (attrs : gmap string Js.value) :
  let b := VButton.template props attrs in
  (Vue.attr_present (VButton.bind_aria_disabled b) = true
   ↔ VButton.disabled props = true ∧ VButton.focusableWhenDisabled props = true)
  ∧ (Vue.boolean_attr_present (VButton.bind_disabled b) = true
     ↔ VButton.disabled props = true ∧ VButton.focusableWhenDisabled props = false
       ∧ VButton.as_ props ≠ "VLink")
  ∧ (Vue.attr_present (VButton.bind_aria_disabled b) = false
     ∧ Vue.boolean_attr_present (VButton.bind_disabled b) = false
     ↔ VButton.disabled props = false
       ∨ (VButton.focusableWhenDisabled props = false ∧ VButton.as_ props = "VLink")).
Proof.
  simpl. rewrite ariaDisabled_value, disabledAttribute_value.
  destruct (VButton.disabled props), (VButton.focusableWhenDisabled props);
    case_bool_decide as Hl; simpl;
    change (Vue.boolean_attr_present Js.Undefined) with false;
    change (Vue.boolean_attr_present (Js.Bool true)) with true;
    intuition congruence.
Qed.

(** ** [buttonComponent] and [linkProps] *)

(** The link component is used exactly for [as = "VLink"], every other
    form is rendered under its own tag; [linkProps] holds one entry, the
    [href] read from the attributes ([undefined] when there is none), for
    [VLink] and nothing for any other form. *)
Theorem link_props_only_for_VLink (props : VButton.Props) (attrs : gmap string Js.value) :
  let b := VButton.template props attrs in
  (VButton.bind_is b = VButton.VLink ↔ VButton.as_ props = "VLink")
  ∧ (VButton.as_ props ≠ "VLink" → VButton.bind_is b = VButton.Native (VButton.as_ props))
  ∧ (∀ (key : string) (v : Js.value),
       VButton.bind_link b !! key = Some v
       ↔ VButton.as_ props = "VLink" ∧ key = "href"
         ∧ v = default Js.Undefined (attrs !! "href")).
Proof.
  simpl. unfold VButton.buttonComponent, VButton.linkProps.
  destruct (String.eqb_spec (VButton.as_ props) "VLink") as [Hl|Hl].
  - split; [tauto|]. split; [tauto|].
    intros key v. rewrite lookup_singleton_Some. unfold Js.get. intuition congruence.
  - split; [split; [discriminate | tauto]|]. split; [done|].
    intros key v. rewrite lookup_empty. intuition congruence.
Qed.

Lemma link_props_only_for_VLink_witness :
  let anchor := VButton.with_as "a" (VButton.defaults "filled-dark" "medium") in
  let attrs : gmap string Js.value := {[ "href" := Js.Str "#content" ]} in
  VButton.as_ anchor ≠ "VLink"
  ∧ VButton.bind_is (VButton.template anchor attrs) = VButton.Native "a".
Proof.
  intros anchor attrs.
  assert (Hl : VButton.as_ anchor ≠ "VLink") by discriminate.
  split; [exact Hl|].
  exact (proj1 (proj2 (link_props_only_for_VLink anchor attrs)) Hl).
Defined.

(** ** [variantClass] *)

Lemma prefix_app (s t : string) : String.prefix s (s +:+ t) = true.
Proof.
  induction s as [|c s IH]; [by destruct t|].
  rewrite app_cons. simpl. by destruct (ascii_dec c c).
Qed.

Lemma length_app_str (s t : string) :
  String.length (s +:+ t) = String.length s + String.length t.
Proof. induction s as [|c s IH]; [reflexivity|]. rewrite app_cons. simpl. by rewrite IH. Qed.

Lemma app_neq_self (s : string) (c : ascii) (t : string) : s +:+ String c t ≠ s.
Proof.
  intros Heq. apply (f_equal String.length) in Heq.
  rewrite length_app_str in Heq. simpl in Heq. lia.
Qed.

(** The class of the variant always starts with the variant, and differs
    from it exactly when the control is active and the variant is one of
    the three that have a pressed style; it is then one of the three
    [-pressed] classes of the style sheet. *)
Theorem variant_class_shape (props : VButton.Props) (attrs : gmap string Js.value) :
  let v := VButton.variant props in
  let c := VButton.variantClass props attrs in
  String.prefix v c = true
  ∧ (c ≠ v ↔
       Js.truthy (VButton.isActive props attrs) = true
       ∧ (v = "bordered-white" ∨ v = "bordered-tx" ∨ v = "transparent-dark"))
  ∧ (c ≠ v →
       c = "bordered-white-pressed" ∨ c = "bordered-tx-pressed"
       ∨ c = "transparent-dark-pressed").
Proof.
  intros v c. subst v c. unfold VButton.variantClass.
  destruct (Js.truthy (VButton.isActive props attrs)); simpl.
  - destruct (Js.includes _ (VButton.variant props)) eqn:Hin.
    + apply includes_spec in Hin. rewrite !elem_of_cons, elem_of_nil in Hin.
      split; [apply prefix_app|]. split.
      * split; [tauto|]. intros _. apply app_neq_self.
      * intros _. destruct Hin as [->|[->|[->|[]]]]; auto.
    + apply includes_false in Hin. rewrite !elem_of_cons, elem_of_nil in Hin.
      split; [rewrite <- (app_empty_r (VButton.variant props)) at 2; apply prefix_app|].
      split; [|done]. split; [done | tauto].
  - split; [rewrite <- (app_empty_r (VButton.variant props)) at 2; apply prefix_app|].
    split; [|done]. split; [done | intros [? _]; discriminate].
Qed.

Lemma variant_class_shape_witness :
  let menu := VButton.mkProps "button" "transparent-dark" (Some true) "medium" false false "button" [] false false false in
  VButton.variantClass menu ∅ ≠ VButton.variant menu
  ∧ (VButton.variantClass menu ∅ = "bordered-white-pressed"
     ∨ VButton.variantClass menu ∅ = "bordered-tx-pressed"
     ∨ VButton.variantClass menu ∅ = "transparent-dark-pressed").
Proof.
  intros menu.
  assert (Hne : VButton.variantClass menu ∅ ≠ VButton.variant menu) by discriminate.
  split; [exact Hne|].
  exact (proj2 (proj2 (variant_class_shape menu ∅)) Hne).
Defined.

(** ** The class object *)

Lemma class_object_elem (name : string) (o : list (string * bool)) :
  name ∈ Vue.class_object o ↔ (name, true) ∈ o.
Proof.
  unfold Vue.class_object. rewrite list_elem_of_fmap. split.
  - intros [[n b] [-> [Hb Hin]%list_elem_of_filter]]. simpl in *. by subst.
  - intros Hin. exists (name, true). split; [done|]. by apply list_elem_of_filter.
Qed.

(** Every control gets exactly one of [border] and
    [focus-visible:outline-tx]: the outline class for the variant
    [plain--avoid], the border for every other variant. *)
Theorem border_or_outline (props : VButton.Props) (attrs : gmap string Js.value) :
  let classes :=
    Vue.class_object (VButton.bind_class_object (VButton.template props attrs)) in
  ("focus-visible:outline-tx" ∈ classes ↔ VButton.variant props = "plain--avoid")
  ∧ ("border" ∈ classes ↔ VButton.variant props ≠ "plain--avoid").
Proof.
  simpl. rewrite !class_object_elem. unfold VButton.isPlainDangerous.
  rewrite streq_spec, !elem_of_cons, !elem_of_nil.
  case_bool_decide as Hv; simpl; split; split; intros H;
    repeat match goal with
           | Hor : _ ∨ _ |- _ => destruct Hor as [Hor|Hor]; try discriminate Hor
           end;
    try done; auto 10.
Qed.

(** ** [connectionStyles] at the empty list *)

(** Without connection flags the class string is empty, and any flag makes
    it non-empty. *)
Theorem connection_classes_empty_iff (props : VButton.Props) :
  VButton.connectionStyles props = "" ↔ VButton.connections props = [].
Proof.
  unfold VButton.connectionStyles.
  destruct (VButton.connections props) as [|x [|y rest]]; [done| |].
  - simpl. split; discriminate.
  - cbn [map]. rewrite join_cons. split; discriminate.
Qed.

(** ** The watcher over a sequence of renders *)

Section WatchInvariants.

Variable skipToContentTargetId : string.

Lemma job_same_form (w : VButton.Watcher) (render : VButton.Props * gmap string Js.value) :
  VButton.oldValue w = Some (VButton.as_ render.1) →
  VButton.job skipToContentTargetId w render = w.
Proof. intros Hold. unfold VButton.job. by rewrite bool_decide_eq_true_2. Qed.

Lemma jobs_same_form (w : VButton.Watcher) (form : string)
    (renders : list (VButton.Props * gmap string Js.value)) :
  VButton.oldValue w = Some form →
  Forall (λ render, VButton.as_ render.1 = form) renders →
  foldl (VButton.job skipToContentTargetId) w renders = w.
Proof.
  intros Hold Hall. induction Hall as [|render renders Hform _ IH]; [reflexivity|].
  simpl. rewrite job_same_form; [exact IH | by rewrite Hform].
Qed.

Lemma job_console_grows (w : VButton.Watcher) (render : VButton.Props * gmap string Js.value) :
  VButton.console w `prefix_of` VButton.console (VButton.job skipToContentTargetId w render).
Proof. rewrite job_console. by apply prefix_app_r. Qed.

Lemma jobs_console_grow (w : VButton.Watcher)
    (renders : list (VButton.Props * gmap string Js.value)) :
  VButton.console w
  `prefix_of` VButton.console (foldl (VButton.job skipToContentTargetId) w renders).
Proof.
  revert w. induction renders as [|render renders IH]; intros w; [done|].
  simpl. etrans; [apply job_console_grows | apply IH].
Qed.


End WatchInvariants.



(** The watcher looks at [as] only: as long as the rendering form stays
    that of the first render, later renders change nothing, whatever
    their [href]; the console is the one of the first render, with one
    warning or none. *)
Theorem watcher_ignores_href (skipToContentTargetId : string)
    (first : VButton.Props * gmap string Js.value)
    (later : list (VButton.Props * gmap string Js.value)) :
  Forall (λ render, VButton.as_ render.1 = VButton.as_ first.1) later →
  VButton.watch skipToContentTargetId (first :: later)
  = VButton.watch skipToContentTargetId [first]
  ∧ VButton.console (VButton.watch skipToContentTargetId (first :: later))
    = if Spec.misuse skipToContentTargetId first
      then [VButton.warning (VButton.as_ first.1)] else [].
Proof.
  intros Hsame.
  assert (Hwatch : VButton.watch skipToContentTargetId (first :: later)
                   = VButton.watch skipToContentTargetId [first]).
  { unfold VButton.watch. simpl.
    by apply jobs_same_form with (form := VButton.as_ first.1). }
  split; [exact Hwatch|]. rewrite Hwatch.
  unfold VButton.watch. simpl. by rewrite onAsChange_misuse.
Qed.

Lemma watcher_ignores_href_witness :
  let skip := (VButton.with_as "a" (VButton.defaults "filled-dark" "medium"),
               ({[ "href" := Js.Str "#content" ]} : gmap string Js.value)) in
  let moved := (VButton.with_as "a" (VButton.defaults "filled-dark" "medium"),
                ({[ "href" := Js.Str "/about" ]} : gmap string Js.value)) in
  Forall (λ render, VButton.as_ render.1 = VButton.as_ skip.1) [moved]
  ∧ VButton.console (VButton.watch "content" [skip; moved]) = [].
Proof.
  intros skip moved.
  assert (Hsame : Forall (λ render, VButton.as_ render.1 = VButton.as_ skip.1) [moved]).
  { by repeat constructor. }
  split; [exact Hsame|].
  exact (proj2 (watcher_ignores_href "content" skip [moved] Hsame)).
Defined.

(** Warnings are never taken back: the console after some renders is a
    prefix of the console after any further renders. *)
Theorem watcher_console_grows (skipToContentTargetId : string)
    (renders further : list (VButton.Props * gmap string Js.value)) :
  VButton.console (VButton.watch skipToContentTargetId renders)
  `prefix_of` VButton.console (VButton.watch skipToContentTargetId (renders ++ further)).
Proof.
  unfold VButton.watch. rewrite foldl_app. apply jobs_console_grow.
Qed.

(** ** The safety wall over a sequence of events *)

Lemma listen_snoc (props : VSafetyWall.Props)
    (trace : list (VSafetyWall.control * VSafetyWall.event))
    (c : VSafetyWall.control) (e : VSafetyWall.event) (w : VSafetyWall.World) :
  VSafetyWall.listen props (trace ++ [(c, e)]) w
  = VSafetyWall.listener props c e (VSafetyWall.listen props trace w).
Proof. unfold VSafetyWall.listen. by rewrite foldl_app. Qed.

Lemma replicate_snoc {A : Type} (n : nat) (x : A) :
  x :: replicate n x = replicate n x ++ [x].
Proof. induction n as [|n IH]; [reflexivity|]. simpl. by rewrite <- IH. Qed.

(** Over any sequence of events on the two buttons, the analytics calls
    added are one [GO_BACK_FROM_SENSITIVE_RESULT], always with the same
    payload, for each mouse-down on the back button, the events emitted
    are one [reveal] for each click on the show button, and the handlers
    never navigate; no other event on either button does anything. *)
Theorem wall_trace_counts (props : VSafetyWall.Props)
    (trace : list (VSafetyWall.control * VSafetyWall.event)) (w : VSafetyWall.World) :
  let w' := VSafetyWall.listen props trace w in
  let presses :=
    length (filter (λ ce, ce = (VSafetyWall.Back, VSafetyWall.mousedown)) trace) in
  let shows :=
    length (filter (λ ce, ce = (VSafetyWall.Show, VSafetyWall.click)) trace) in
  VSafetyWall.analytics w'
  = VSafetyWall.analytics w
    ++ replicate presses
         ("GO_BACK_FROM_SENSITIVE_RESULT",
          ({[ "id" := Js.Str (VSafetyWall.id props);
              "sensitivities" := Js.Str (Js.join "," (VSafetyWall.sensitivity props)) ]}
           : gmap string Js.value))
  ∧ VSafetyWall.emitted w' = VSafetyWall.emitted w ++ replicate shows ("reveal", [])
  ∧ VSafetyWall.visited w' = VSafetyWall.visited w.
Proof.
  simpl. induction trace as [|[c e] trace (IHa & IHe & IHv)] using rev_ind.
  - simpl. by rewrite !app_nil_r.
  - rewrite listen_snoc, !filter_app, !length_app.
    rewrite !(Nat.add_comm (length (filter _ trace))).
    destruct c, e; simpl; rewrite ?IHa, ?IHe, ?IHv, ?replicate_snoc, ?app_assoc; done.
Qed.

(** ** The event payload *)

(** The reasons can be read back from the [sensitivities] field of the
    event by splitting at commas, when there is at least one reason and no
    reason holds a comma; without reasons the field is the empty string. *)
Theorem sensitivities_round_trip (props : VSafetyWall.Props) (w : VSafetyWall.World) :
  let sent :=
    last (VSafetyWall.analytics (VSafetyWall.handleBack props w))
    ≫= (λ call, call.2 !! "sensitivities") in
  (VSafetyWall.sensitivity props = [] → sent = Some (Js.Str ""))
  ∧ (VSafetyWall.sensitivity props ≠ [] →
     Forall (λ reason, Js.occurs "," reason = false) (VSafetyWall.sensitivity props) →
     ∃ joined : string,
       sent = Some (Js.Str joined)
       ∧ Js.split "," joined = VSafetyWall.sensitivity props).
Proof.
  simpl. rewrite last_snoc. simpl.
  assert (Hfield : ∀ a b : Js.value,
             ({[ "id" := a; "sensitivities" := b ]} : gmap string Js.value)
             !! "sensitivities" = Some b) by (intros; by simplify_map_eq).
  rewrite Hfield. split.
  - intros ->. reflexivity.
  - intros Hne Hreasons. eexists. split; [reflexivity|]. by apply split_join.
Qed.

Lemma sensitivities_round_trip_witness :
  let props := VSafetyWall.mkProps ["sensitive_text"; "user_reported_sensitive"] "f9384235" in
  let w := VSafetyWall.mkWorld [] [] [] in
  VSafetyWall.sensitivity props ≠ []
  ∧ Forall (λ reason, Js.occurs "," reason = false) (VSafetyWall.sensitivity props)
  ∧ ∃ joined : string,
      (last (VSafetyWall.analytics (VSafetyWall.handleBack props w))
       ≫= (λ call, call.2 !! "sensitivities")) = Some (Js.Str joined)
      ∧ Js.split "," joined = ["sensitive_text"; "user_reported_sensitive"].
Proof.
  intros props w.
  assert (Hne : VSafetyWall.sensitivity props ≠ []) by discriminate.
  assert (Hreasons : Forall (λ reason, Js.occurs "," reason = false)
                       (VSafetyWall.sensitivity props)) by (by repeat constructor).
  split; [exact Hne|]. split; [exact Hreasons|].
  exact (proj2 (sensitivities_round_trip props w) Hne Hreasons).
Defined.

(** ** The back button's href *)

(** Whatever the store holds as return path, the back button is given an
    href that is truthy, so the attribute is always rendered and never
    empty. *)
Theorem back_target_truthy (backToSearchPath : Js.value) :
  ∃ href : Js.value,
    VSafetyWall.target backToSearchPath VSafetyWall.Back = Some href
    ∧ Js.truthy href = true
    ∧ Vue.attr_present href = true
    ∧ href ≠ Js.Str "".
Proof.
  eexists. split; [apply back_target|].
  assert (Htruthy : Js.truthy (Js.or backToSearchPath (Js.Str "/")) = true).
  { rewrite or_truthy. apply orb_true_r. }
  split; [exact Htruthy|].
  destruct (Js.or backToSearchPath (Js.Str "/")) as [| |b|n|s]; try discriminate; split;
    try done.
  intros [= ->]. discriminate.
Qed.
